(** * thyme: the command-line front end (cmd/thyme/main.go)

    A shallow embedding of the three sub-commands of the [thyme] binary
    ([track], [show], [dep]) together with the part of the operating
    system they talk to: the process environment, the SQLite files that
    [database/sql] opens, the plain files reached through package [os],
    and the two standard streams.

    The commands are written in a small state-and-panic monad so that
    each definition can be read side by side with the Go function of the
    same name. *)

From Stdlib Require Import ZArith Ascii String.
From stdpp Require Import base option list strings gmap sorting pretty.

Local Open Scope string_scope.
Local Open Scope Z_scope.

(** ** Go errors

    Every [error] value that can flow through [main.go].  The messages of
    the collaborating packages are kept as payload. *)

Inductive error : Type :=
  | TrackerError (msg : string)
      (** whatever [Tracker.Snap] reports *)
  | JSONError (msg : string)
      (** [encoding/json]: marshal or decode failure *)
  | SqliteCantOpen (path : string)
      (** sqlite: unable to open database file *)
  | SqliteConstraintUnique (column : string)
      (** sqlite: UNIQUE constraint failed: <column> *)
  | SqliteNoSuchTable (table : string)
      (** sqlite: no such table: <table> *)
  | PathError (op path : string)
      (** [*os.PathError] of [os.Open] and [os.Create] *)
  | ErrInvalid
      (** [os.ErrInvalid]: a method called on a nil [*os.File] *)
  | ScanError
      (** [database/sql]: Scan called without a current row *)
  | StatsError (msg : string).
      (** whatever [thyme.Stats] reports *)

Global Instance error_eq_dec : EqDecision error.
Proof. solve_decision. Defined.

(** ** Package [github.com/mehdidc/thyme]

    [main.go] imports the library half of the repository.  Its types and
    functions are an interface here; the commands below are generic in
    it. *)

Class Thyme : Type := {
  Window : Type;
  Winfo : Type;
  (** [func (w *Window) Info() *Winfo] *)
  Info : Window -> Winfo;
  Snapshot : Type;
  (** field [Snapshot.Time], the value bound to column [time], on the
      time line *)
  Time : Snapshot -> Z;
  (** field [Snapshot.Windows] *)
  Windows : Snapshot -> list Window;
  Stream : Type;
  Tracker : Type;
  (** [func NewTracker(name string) Tracker] *)
  NewTracker : string -> Tracker;
  (** what a tracker can observe: the state of the window system *)
  Desktop : Type;
  (** method [Snap] of interface [Tracker]: a snapshot or an error *)
  Snap : Tracker -> Desktop -> error + Snapshot;
  (** [Tracker.Deps() string] *)
  Deps : Tracker -> string;
  (** the [error] returned by [thyme.Stats(&stream)] *)
  Stats : Stream -> option error;
  (** [json.Marshal(snap)] *)
  json_Marshal : Snapshot -> error + string;
  (** [json.NewDecoder(r).Decode(&snap)] on the bytes of [r] *)
  json_Decode_Snapshot : string -> error + Snapshot;
  (** [json.NewDecoder(r).Decode(&stream)] on the bytes of [r] *)
  json_Decode_Stream : string -> error + Stream;
}.

Section Commands.
Context `{Thyme}.

(** ** The world outside the process *)

(** One row of table [data(time TIMESTAMP PRIMARY KEY, value TEXT)]. *)
Definition Row : Type := (Z * string)%type.

(** What the process prints on standard output, kept symbolically: which
    library routine or format verb produced it, and for which value. *)
Inductive Output : Type :=
  | PrintfWinfo (i : Winfo)     (** [fmt.Printf("%+v\n", w.Info())] *)
  | PrintlnStream (s : Stream)  (** [fmt.Println(stream)] *)
  | StatsOutput (s : Stream)    (** written by [thyme.Stats(&stream)] *)
  | ListOutput (s : Stream)     (** written by [thyme.List(&stream)] *)
  | PrintlnDeps (d : string).   (** [fmt.Println(t.Deps())] *)

Record World : Type := mkWorld {
  (** [runtime.GOOS] *)
  GOOS : string;
  (** the process environment read by [os.Getenv] *)
  environ : gmap string string;
  (** the window system the tracker looks at *)
  desktop : Desktop;
  (** how many times [Tracker.Snap] has been called *)
  snap_calls : nat;
  (** SQLite database files by path; each holds table [data], rows in
      rowid order.  No entry: no such table (or no such file) yet. *)
  dbs : gmap string (list Row);
  (** plain files by path.  The two kinds of file are kept apart: a path
      is not taken to name a database and a plain file at once. *)
  files : gmap string string;
  (** paths at which no file can be created or opened for writing
      (missing directory, no permission) *)
  unwritable : gset string;
  stdin : string;
  stdout : list Output;
}.

Definition set_snap_calls (n : nat) (w : World) : World :=
  mkWorld (GOOS w) (environ w) (desktop w) n (dbs w) (files w)
          (unwritable w) (stdin w) (stdout w).

Definition set_dbs (d : gmap string (list Row)) (w : World) : World :=
  mkWorld (GOOS w) (environ w) (desktop w) (snap_calls w) d (files w)
          (unwritable w) (stdin w) (stdout w).

Definition set_files (f : gmap string string) (w : World) : World :=
  mkWorld (GOOS w) (environ w) (desktop w) (snap_calls w) (dbs w) f
          (unwritable w) (stdin w) (stdout w).

Definition set_stdout (o : list Output) (w : World) : World :=
  mkWorld (GOOS w) (environ w) (desktop w) (snap_calls w) (dbs w) (files w)
          (unwritable w) (stdin w) o.

(** ** The monad: state passing with Go's [panic] *)

Inductive outcome (A : Type) : Type :=
  | Ret (a : A)
  | Panic (e : error).
Global Arguments Ret {A} a.
Global Arguments Panic {A} e.

Definition M (A : Type) : Type := World -> outcome A * World.

Global Instance M_ret : MRet M := fun A a w => (Ret a, w).

Global Instance M_bind : MBind M := fun A B f m w =>
  match m w with
  | (Ret a, w') => f a w'
  | (Panic e, w') => (Panic e, w')
  end.

Definition bind {A B : Type} (m : M A) (f : A -> M B) : M B := m ≫= f.

Notation "'let*' x ':=' m 'in' k" := (bind m (fun x => k))
  (at level 10, x pattern, m at level 100, k at level 200, only parsing).

Definition panic {A : Type} (e : error) : M A := fun w => (Panic e, w).
Definition gets {A : Type} (f : World -> A) : M A := fun w => (Ret (f w), w).
Definition modify (f : World -> World) : M unit := fun w => (Ret tt, f w).

(** Access to the two stores of the world. *)
Definition read_file (p : string) : M (option string) :=
  gets (fun w => files w !! p).
Definition write_file (p content : string) : M unit :=
  modify (fun w => set_files (<[p := content]> (files w)) w).
Definition read_table (p : string) : M (option (list Row)) :=
  gets (fun w => dbs w !! p).
Definition write_table (p : string) (rows : list Row) : M unit :=
  modify (fun w => set_dbs (<[p := rows]> (dbs w)) w).
Definition is_unwritable (p : string) : M bool :=
  gets (fun w => bool_decide (p ∈ unwritable w)).

(** [x, err := call; if err != nil { panic(err) }] *)
Definition or_panic {A : Type} (call : M (error + A)) : M A :=
  let* r := call in
  match r with
  | inl err => panic err
  | inr x => mret x
  end.

(** ** getTracker *)

Definition getTracker : M (error + Tracker) :=
  let* goos := gets GOOS in
  if String.eqb goos "windows" then mret (inr (NewTracker "windows"))
  else if String.eqb goos "darwin" then mret (inr (NewTracker "darwin"))
  else mret (inr (NewTracker "linux")).

(** ** Package [os] *)

(** [os.Getenv(key)]: the value, or the empty string when unset. *)
Definition os_Getenv (key : string) : M string :=
  gets (fun w => default EmptyString (environ w !! key)).

(** A [*os.File] open for writing: [None] is the nil pointer, [Some p]
    a descriptor on path [p]. *)
Definition File : Type := option string.

(** [os.Create(name)]: creates or truncates.  On failure the file
    pointer is nil.  This is [os.Create] at a path that names a plain
    file or nothing; see [ordinary_file]. *)
Definition os_Create (name : string) : M (File * option error) :=
  let* ro := is_unwritable name in
  if ro then mret (None, Some (PathError "open" name))
  else write_file name EmptyString;; mret (Some name, None).

(** [f.WriteString(s)].  Package [os] checks the receiver first: on a
    nil file every method returns [ErrInvalid]. *)
Definition File_WriteString (f : File) (s : string) : M (option error) :=
  match f with
  | None => mret (Some ErrInvalid)
  | Some p =>
      let* old := read_file p in
      write_file p (default EmptyString old +:+ s);;
      mret None
  end.

(** [os.Open(name)], as far as [show] uses it: the bytes to read.  This
    is [os.Open] at a path that names a plain file or nothing; see
    [ordinary_file]. *)
Definition os_Open (name : string) : M (error + string) :=
  let* r := read_file name in
  match r with
  | Some content => mret (inr content)
  | None => mret (inl (PathError "open" name))
  end.

(** ** Packages [database/sql] and [go-sqlite3]

    The program uses one table and three statements, so each statement
    has its own function here. *)

(** [*sql.DB]: a handle that remembers the data source name. *)
Record DB : Type := mkDB { dataSourceName : string }.

(** [sql.Open("sqlite3", filename)].  The driver is registered by the
    blank import, and [Open] itself does not touch the file. *)
Definition sql_Open (driverName filename : string) : M (error + DB) :=
  mret (inr (mkDB filename)).

(** [db.Exec("CREATE TABLE IF NOT EXISTS data(time TIMESTAMP PRIMARY KEY,
    value TEXT)")] *)
Definition db_Exec_create_table (db : DB) : M (error + unit) :=
  let* ro := is_unwritable (dataSourceName db) in
  if ro then mret (inl (SqliteCantOpen (dataSourceName db)))
  else
    let* t := read_table (dataSourceName db) in
    match t with
    | Some _ => mret (inr tt)
    | None => write_table (dataSourceName db) [];; mret (inr tt)
    end.

(** [*sql.Stmt] for [INSERT INTO data(time, value) values(?,?)]. *)
Record Stmt : Type := mkStmt { stmt_db : DB }.

(** [db.Prepare("INSERT INTO data(time, value) values(?,?)")] *)
Definition db_Prepare_insert (db : DB) : M (error + Stmt) :=
  let* ro := is_unwritable (dataSourceName db) in
  if ro then mret (inl (SqliteCantOpen (dataSourceName db)))
  else
    let* t := read_table (dataSourceName db) in
    match t with
    | Some _ => mret (inr (mkStmt db))
    | None => mret (inl (SqliteNoSuchTable "data"))
    end.

(** [stmt.Exec(time, value)].  Column [time] is the primary key: a row
    whose key is already in the table is refused and the table stays as
    it is; otherwise the row gets the next rowid. *)
Definition stmt_Exec (stmt : Stmt) (time : Z) (value : string)
  : M (error + unit) :=
  let path := dataSourceName (stmt_db stmt) in
  let* t := read_table path in
  match t with
  | None => mret (inl (SqliteNoSuchTable "data"))
  | Some rows =>
      if decide (time ∈ rows.*1)
      then mret (inl (SqliteConstraintUnique "data.time"))
      else write_table path (rows ++ [(time, value)]);; mret (inr tt)
  end.

(** [*sql.Rows]: a cursor over the result of a query. *)
Record Rows : Type := mkRows {
  current : option string;
  pending : list string;
}.

(** [db.Query("SELECT value FROM data")].  There is no ORDER BY and no
    index holds column [value], so the table is scanned in rowid
    order. *)
Definition db_Query_select_value (db : DB) : M (error + Rows) :=
  let* ro := is_unwritable (dataSourceName db) in
  if ro then mret (inl (SqliteCantOpen (dataSourceName db)))
  else
    let* t := read_table (dataSourceName db) in
    match t with
    | Some rows => mret (inr (mkRows None rows.*2))
    | None => mret (inl (SqliteNoSuchTable "data"))
    end.

(** [rows.Next()] *)
Definition rows_Next (r : Rows) : bool * Rows :=
  match pending r with
  | [] => (false, mkRows None [])
  | v :: rest => (true, mkRows (Some v) rest)
  end.

(** [rows.Scan(&value)]: the new content of [value], and the error. *)
Definition rows_Scan (r : Rows) (value : string) : string * option error :=
  match current r with
  | Some v => (v, None)
  | None => (value, Some ScanError)
  end.

(** ** Package [thyme]: the two reports *)

Definition print (o : Output) : M unit :=
  modify (fun w => set_stdout (stdout w ++ [o]) w).

(** [thyme.Stats(&stream)]: writes its report and returns an error. *)
Definition thyme_Stats (stream : Stream) : M (option error) :=
  print (StatsOutput stream);; mret (Stats stream).

(** [thyme.List(&stream)] *)
Definition thyme_List (stream : Stream) : M unit :=
  print (ListOutput stream).

(** [t.Snap()] *)
Definition Tracker_Snap (t : Tracker) : M (error + Snapshot) :=
  modify (fun w => set_snap_calls (S (snap_calls w)) w);;
  gets (fun w => Snap t (desktop w)).

(** ** track *)

Record TrackCmd : Type := mkTrackCmd { Out : string }.

Definition LF : string := String (ascii_of_nat 10) EmptyString.
Definition DQUOTE : string := String (ascii_of_nat 34) EmptyString.

(** The body of [for rows.Next() { ... }], by recursion on the rows the
    cursor still holds; [value] is the variable that [Scan] fills. *)
Fixpoint write_more_rows (f : File) (rest : list string) (value : string)
  : M unit :=
  match rest with
  | [] => mret tt
  | v :: rest' =>
      File_WriteString f ",";;
      let '(value, err) := rows_Scan (mkRows (Some v) rest') value in
      File_WriteString f value;;
      write_more_rows f rest' value
  end.

(** [if c.Out != "" { ... }] of [TrackCmd.Execute].  The results of
    [os.Create], [Scan] and [WriteString] are dropped as in the
    source. *)
Definition export (c : TrackCmd) (db : DB) : M unit :=
  let value := EmptyString in
  let* rows := or_panic (db_Query_select_value db) in
  let* (f, err) := os_Create (Out c) in
  File_WriteString f ("{" +:+ LF);;
  File_WriteString f (DQUOTE +:+ "Snapshots" +:+ DQUOTE +:+ " : [" +:+ LF);;
  let '(_, rows) := rows_Next rows in
  let '(value, err) := rows_Scan rows value in
  File_WriteString f value;;
  write_more_rows f (pending rows) value;;
  File_WriteString f ("]" +:+ LF);;
  File_WriteString f "}";;
  mret tt.

Definition TrackCmd_Execute (c : TrackCmd) (args : list string)
  : M (option error) :=
  let* t := or_panic getTracker in
  let* snap := or_panic (Tracker_Snap t) in
  let* home := os_Getenv "HOME" in
  let filename := home +:+ "/.thyme/thyme.db" in
  let* db := or_panic (sql_Open "sqlite3" filename) in
  let* out := or_panic (mret (json_Marshal snap)) in
  let* _ := or_panic (db_Exec_create_table db) in
  let* stmt := or_panic (db_Prepare_insert db) in
  let* _ := or_panic (stmt_Exec stmt (Time snap) out) in
  (if decide (Out c ≠ EmptyString) then export c db else mret tt);;
  mret None.

(** ** show *)

Record ShowCmd : Type := mkShowCmd { In : string; What : string }.

Fixpoint print_windows (ws : list Window) : M unit :=
  match ws with
  | [] => mret tt
  | w :: ws' => print (PrintfWinfo (Info w));; print_windows ws'
  end.

(** The statements under [default:], which [case "list"] falls through
    to. *)
Definition show_list (stream : Stream) : M (option error) :=
  print (PrintlnStream stream);;
  thyme_List stream;;
  mret None.

Definition ShowCmd_Execute (c : ShowCmd) (args : list string)
  : M (option error) :=
  if decide (In c = EmptyString) then
    let* input := gets stdin in
    match json_Decode_Snapshot input with
    | inl err => mret (Some err)
    | inr snap => print_windows (Windows snap);; mret None
    end
  else
    let* r := os_Open (In c) in
    match r with
    | inl err => mret (Some err)
    | inr f =>
        (* defer f.Close() *)
        match json_Decode_Stream f with
        | inl err => mret (Some err)
        | inr stream =>
            if String.eqb (What c) "stats" then
              let* err := thyme_Stats stream in
              match err with
              | Some err => mret (Some err)
              | None => mret None
              end
            else if String.eqb (What c) "list" then show_list stream
            else show_list stream
        end
    end.

(** ** dep *)

Record DepCmd : Type := mkDepCmd { }.

Definition DepCmd_Execute (c : DepCmd) (args : list string)
  : M (option error) :=
  let* r := getTracker in
  match r with
  | inl err => mret (Some err)
  | inr t => print (PrintlnDeps (Deps t));; mret None
  end.

(** ** main

    The parser of [go-flags] is outside the program.  [CLI.Parse] is
    given what the parser made of the command line: its own error, or
    the command that [init] registered under the name on the command
    line, with its options filled in, and the remaining arguments. *)

(** The three values registered by [CLI.AddCommand] in [init]. *)
Inductive Command : Type :=
  | TrackCommand (c : TrackCmd)   (** "track", [&trackCmd] *)
  | ShowCommand (c : ShowCmd)     (** "show", [&showCmd] *)
  | DepCommand (c : DepCmd).      (** "dep", [&depCmd] *)

(** Method [Execute] of interface [flags.Commander]. *)
Definition Command_Execute (cmd : Command) (args : list string)
  : M (option error) :=
  match cmd with
  | TrackCommand c => TrackCmd_Execute c args
  | ShowCommand c => ShowCmd_Execute c args
  | DepCommand c => DepCmd_Execute c args
  end.

(** An [error] as [CLI.Parse] returns it: a [*flags.Error] of the
    parser, or the error that [Execute] returned. *)
Inductive ParseError : Type :=
  | FlagsError (msg : string)
  | ExecuteError (err : error).

(** [CLI.Parse()]: the parser runs the selected command and hands back
    its error. *)
Definition CLI_Parse (parsed : string + Command * list string)
  : M (option ParseError) :=
  match parsed with
  | inl msg => mret (Some (FlagsError msg))
  | inr (cmd, args) =>
      let* err := Command_Execute cmd args in
      mret (ExecuteError <$> err)
  end.

(** What [main] itself writes to standard error. *)
Inductive Stderr : Type :=
  | WriteHelp                     (** [CLI.WriteHelp(os.Stderr)] *)
  | LogPrint (err : ParseError).  (** [log.Print(err)] *)

(** The closure [run] of [main]: what it wrote, and its error. *)
Definition main_run (parsed : string + Command * list string)
  : M (list Stderr * option ParseError) :=
  let* err := CLI_Parse parsed in
  match err with
  | Some (FlagsError msg) => mret ([WriteHelp], None)
  | Some err => mret ([], Some err)
  | None => mret ([], None)
  end.

(** [main]: what it wrote to standard error, and the exit status of the
    process when it is not ended by a panic. *)
Definition main (parsed : string + Command * list string)
  : M (list Stderr * Z) :=
  let* (log, err) := main_run parsed in
  match err with
  | Some err => mret ((log ++ [LogPrint err])%list, 1)
  | None => mret (log, 0)
  end.

(** ** Vocabulary of the properties *)


(** The database file of [track]: [os.Getenv("HOME") + "/.thyme/thyme.db"]. *)
Definition database_path (w : World) : string :=
  default EmptyString (environ w !! "HOME") +:+ "/.thyme/thyme.db".

(** The text that the export of [track] writes for the values of a
    non-empty result set, first to last. *)
Definition export_text (values : list string) : string :=
  ("{" +:+ LF)
  +:+ (DQUOTE +:+ "Snapshots" +:+ DQUOTE +:+ " : [" +:+ LF)
  +:+ default EmptyString (head values)
  +:+ String.concat EmptyString ((fun v => "," +:+ v) <$> tail values)
  +:+ ("]" +:+ LF)
  +:+ "}".


(** Paths are the canonical names of files, and the world keeps the
    databases, the plain files and the two standard streams in stores
    of their own.  On a machine they are one file system: [os.Create]
    truncates whatever the path names.  The stores say what the program
    does as long as the paths it is given name ordinary files. *)




End Commands.

Arguments World {_}.
Arguments M {_} _.
Arguments Output {_}.

(** ** A small instance of the library, for concrete runs

    Windows are their titles, a snapshot is its time and its windows, and
    the desktop holds what the next capture returns.  The encoder prints
    the time in decimal; the decoders know one malformed input. *)

Definition toy_decode_snapshot (input : string) : error + (Z * list string) :=
  if String.eqb input "{" then inl (JSONError "unexpected EOF")
  else inr (0, [input]).

Definition toy_decode_stream (input : string)
  : error + list (Z * list string) :=
  if String.eqb input "{" then inl (JSONError "unexpected EOF")
  else inr [(0, [input])].

Definition toy : Thyme := {|
  Window := string;
  Winfo := string;
  Info := fun w => w;
  Snapshot := Z * list string;
  Time := fst;
  Windows := snd;
  Stream := list (Z * list string);
  Tracker := string;
  NewTracker := fun name => name;
  Desktop := error + (Z * list string);
  Snap := fun _ d => d;
  Deps := fun t => "dependencies on " +:+ t;
  Stats := fun _ => None;
  json_Marshal := fun snap => inr ("{Time:" +:+ pretty (fst snap) +:+ "}");
  json_Decode_Snapshot := toy_decode_snapshot;
  json_Decode_Stream := toy_decode_stream;
|}.

Definition home_db : string := "/home/u/.thyme/thyme.db".

(** A Linux machine on which the next capture returns [d] and the
    database holds [tables]. *)
Definition toy_world (d : error + (Z * list string))
    (tables : gmap string (list (Z * string))) : @World toy :=
  @mkWorld toy "linux" {["HOME" := "/home/u"]} d 0 tables ∅
           {["/proc/out.json"]} EmptyString [].

(** A machine with stored files and something on standard input. *)
Definition toy_reader (fs : gmap string string) (input : string)
  : @World toy :=
  @mkWorld toy "linux" {["HOME" := "/home/u"]} (inr (0, [])) 0 ∅ fs ∅
           input [].

(** A machine with environment [env] on which no file can be created
    at the paths [ro]. *)
Definition toy_machine (env : gmap string string) (ro : gset string)
    (d : error + (Z * list string)) : @World toy :=
  @mkWorld toy "linux" env d 0 ∅ ∅ ro EmptyString [].

(** The machine after one run of [track] that captured at time 10, when
    the next capture returns [d]. *)
Definition toy_tracked_once (d : error + (Z * list string)) : @World toy :=
  toy_world d
    (dbs (TrackCmd_Execute (mkTrackCmd EmptyString) []
            (toy_world (inr (10, ["editor"])) ∅)).2).


(** [track -o /proc/out.json] on a fresh machine: the output file
    cannot be created. *)
Definition export_nowhere : outcome (option error) * @World toy :=
  TrackCmd_Execute (mkTrackCmd "/proc/out.json") []
    (toy_world (inr (10, ["editor"])) ∅).

(** ** The aggregator of package [thyme] *)

Module Aggregator.

(** Modelled from the spec: the data model and [thyme.Stats], the
    aggregation of a stream into usage records.  The function lives in
    the library half of the repository, which [main.go] only calls; what
    follows is section 3 (data model) and section 4.3 (interval
    attribution, output ordering) of the specification. *)
Record WindowInfo : Type := mkWindowInfo {
  title : string;
  processName : string;
  desktopId : option Z;
}.

Global Instance WindowInfo_eq_dec : EqDecision WindowInfo.
Proof. solve_decision. Defined.

Global Instance WindowInfo_countable : Countable WindowInfo :=
  inj_countable'
    (fun w => (title w, processName w, desktopId w))
    (fun t => mkWindowInfo t.1.1 t.1.2 t.2)
    (fun w => match w with mkWindowInfo _ _ _ => eq_refl end).

Record Snapshot : Type := mkSnapshot {
  time : Z;
  openWindows : gset WindowInfo;
  visibleWindows : gset WindowInfo;
  activeWindow : option WindowInfo;
}.

(** A stream is its ordered sequence of snapshots. *)
Definition Stream : Type := list Snapshot.

(** Windows are matched across snapshots by [(processName, title)]. *)
Definition Key : Type := (string * string)%type.

Definition key_of (w : WindowInfo) : Key := (processName w, title w).

Record UsageRecord : Type := mkUsageRecord {
  activeDuration : Z;
  openDuration : Z;
  visibleDuration : Z;
}.

Definition no_usage : UsageRecord := mkUsageRecord 0 0 0.

Definition add_active (dt : Z) (r : UsageRecord) : UsageRecord :=
  mkUsageRecord (activeDuration r + dt) (openDuration r) (visibleDuration r).
Definition add_open (dt : Z) (r : UsageRecord) : UsageRecord :=
  mkUsageRecord (activeDuration r) (openDuration r + dt) (visibleDuration r).
Definition add_visible (dt : Z) (r : UsageRecord) : UsageRecord :=
  mkUsageRecord (activeDuration r) (openDuration r) (visibleDuration r + dt).

(** Add to the record of window [w], starting it when the key is new. *)
Definition credit (f : UsageRecord -> UsageRecord) (w : WindowInfo)
    (m : gmap Key UsageRecord) : gmap Key UsageRecord :=
  <[key_of w := f (default no_usage (m !! key_of w))]> m.

(** Steps 3 to 5: the interval [dt] that starts at snapshot [s] goes to
    the state recorded in [s]. *)
Definition attribute (s : Snapshot) (dt : Z) (m : gmap Key UsageRecord)
  : gmap Key UsageRecord :=
  let m := set_fold (credit (add_open dt)) m (openWindows s) in
  let m := set_fold (credit (add_visible dt)) m (visibleWindows s) in
  match activeWindow s with
  | Some w => credit (add_active dt) w m
  | None => m
  end.

(** Modelled from the spec: the loop of [thyme.Stats] over the
    consecutive pairs of snapshots (step 2).  With fewer than two
    snapshots there is no pair (step 1). *)
Fixpoint attribute_pairs (S : Stream) (m : gmap Key UsageRecord)
  : gmap Key UsageRecord :=
  match S with
  | s :: (s' :: _) as rest => attribute_pairs rest (attribute s (time s' - time s) m)
  | _ => m
  end.

(** Modelled from the spec: the mapping that [thyme.Stats] computes,
    from [(processName, title)] to the usage record. *)
Definition aggregate (S : Stream) : gmap Key UsageRecord :=
  attribute_pairs S ∅.

(** Output ordering: by [activeDuration] descending, ties by
    [(processName, title)] ascending. *)
Definition key_leb (a b : Key) : bool :=
  match String.compare a.1 b.1 with
  | Lt => true
  | Eq => String.leb a.2 b.2
  | Gt => false
  end.

Definition before (a b : Key * UsageRecord) : Prop :=
  activeDuration b.2 < activeDuration a.2
  ∨ (activeDuration a.2 = activeDuration b.2 ∧ key_leb a.1 b.1 = true).

Global Instance before_dec : RelDecision before.
Proof. intros a b. unfold before. apply _. Defined.

(** The error kinds of section 7 that are errors; a stream with zero or
    one snapshot is not one of them. *)
Inductive ErrorKind : Type :=
  | CaptureFailure
  | DuplicateTimestamp
  | MalformedRecord.

(** Modelled from the spec: [thyme.Stats], the table of usage records in
    output order.  Section 4.3 gives the aggregation no failing case. *)
Definition Stats (S : Stream) : ErrorKind + list (Key * UsageRecord) :=
  inr (merge_sort before (map_to_list (aggregate S))).

(** The windows and the stream of the scenario of section 8. *)
Definition window_A : WindowInfo := mkWindowInfo "A" "app" None.
Definition window_B : WindowInfo := mkWindowInfo "B" "app" None.

Definition scenario : Stream :=
  [ mkSnapshot 0 {[window_A; window_B]} ∅ (Some window_A);
    mkSnapshot 10 {[window_A; window_B]} ∅ (Some window_B);
    mkSnapshot 15 {[window_B]} ∅ (Some window_B) ].

End Aggregator.

(** * Properties *)

Lemma append_cons (x : ascii) (a b : string) :
  String x a +:+ b = String x (a +:+ b).
Proof. reflexivity. Qed.

Lemma append_assoc (a b c : string) : (a +:+ b) +:+ c = a +:+ (b +:+ c).
Proof.
  induction a as [|x a IH]; [reflexivity|].
  by rewrite !append_cons, IH.
Qed.

Lemma append_nil_r (a : string) : a +:+ EmptyString = a.
Proof.
  induction a as [|x a IH]; [reflexivity|].
  by rewrite append_cons, IH.
Qed.

Section Properties.
Context `{Thyme}.

Implicit Types (w : World) (c : TrackCmd) (s : ShowCmd).

(** Unfolds the monad down to state-passing functions. *)
Ltac run :=
  unfold or_panic, panic, gets, modify;
  unfold bind, mbind, mret, M_bind, M_ret;
  simpl.

(** *** getTracker *)

Lemma getTracker_run w : ∃ t : Tracker, getTracker w = (Ret (inr t), w).
Proof.
  unfold getTracker. run.
  destruct (String.eqb (GOOS w) "windows"); [by eexists|].
  destruct (String.eqb (GOOS w) "darwin"); by eexists.
Qed.

(** C10: [getTracker] always returns a tracker and a nil error, without
    touching the world: the "windows" tracker when GOOS is "windows", the
    "darwin" tracker when GOOS is "darwin", and the "linux" tracker for
    every other value of GOOS. *)
Theorem getTracker_total w :
  ∃ t : Tracker,
    getTracker w = (Ret (inr t), w)
    ∧ (GOOS w = "windows" → t = NewTracker "windows")
    ∧ (GOOS w = "darwin" → t = NewTracker "darwin")
    ∧ (GOOS w ≠ "windows" → GOOS w ≠ "darwin" → t = NewTracker "linux").
Proof.
  unfold getTracker. run.
  destruct (String.eqb_spec (GOOS w) "windows") as [Hw|Hw].
  - exists (NewTracker "windows"). rewrite Hw. repeat split; congruence.
  - destruct (String.eqb_spec (GOOS w) "darwin") as [Hd|Hd].
    + exists (NewTracker "darwin"). repeat split; congruence.
    + exists (NewTracker "linux"). repeat split; congruence.
Qed.

(** *** show *)

Lemma set_stdout_id w : set_stdout (stdout w) w = w.
Proof. by destruct w. Qed.

Lemma set_stdout_twice w (o o' : list Output) :
  set_stdout o' (set_stdout o w) = set_stdout o' w.
Proof. reflexivity. Qed.

Lemma print_windows_run (ws : list Window) w :
  print_windows ws w
  = (Ret tt, set_stdout (stdout w ++ (PrintfWinfo ∘ Info <$> ws)) w).
Proof.
  revert w. induction ws as [|x ws IH]; intros w; simpl.
  - by rewrite app_nil_r, set_stdout_id.
  - unfold print at 1. run. rewrite IH. simpl.
    by rewrite set_stdout_twice, <- app_assoc.
Qed.

Lemma show_list_run (stream : Stream) w :
  show_list stream w
  = (Ret None,
     set_stdout (stdout w ++ [PrintlnStream stream; ListOutput stream]) w).
Proof.
  unfold show_list, thyme_List, print. run.
  by rewrite set_stdout_twice, <- app_assoc.
Qed.

(** The file branch of [show] once the stream is loaded. *)
Lemma show_file_run s args w (content : string) (stream : Stream) :
  In s ≠ EmptyString →
  files w !! In s = Some content →
  json_Decode_Stream content = inr stream →
  ShowCmd_Execute s args w
  = if String.eqb (What s) "stats"
    then (Ret (Stats stream), set_stdout (stdout w ++ [StatsOutput stream]) w)
    else show_list stream w.
Proof.
  intros Hin Hfile Hdec. unfold ShowCmd_Execute.
  destruct (decide (In s = EmptyString)) as [|_]; [done|].
  unfold os_Open, read_file. run. rewrite Hfile, Hdec.
  destruct (String.eqb (What s) "stats").
  - unfold thyme_Stats, print. run. by destruct (Stats stream).
  - by destruct (String.eqb (What s) "list").
Qed.

(** C2: [show] on an input file that opens and decodes to [stream]: with
    mode "stats" the run is that of [thyme.Stats] on the stream (its
    report on standard output, its error as the result); with any other
    mode, "list" or not, the stream is printed and listed by
    [thyme.List], and the result is nil. *)
Theorem show_mode_dispatch s args w (content : string) (stream : Stream) :
  In s ≠ EmptyString →
  files w !! In s = Some content →
  json_Decode_Stream content = inr stream →
  (What s = "stats" →
     ShowCmd_Execute s args w
     = (Ret (Stats stream),
        set_stdout (stdout w ++ [StatsOutput stream]) w))
  ∧ (What s ≠ "stats" →
     ShowCmd_Execute s args w
     = (Ret None,
        set_stdout (stdout w ++ [PrintlnStream stream; ListOutput stream]) w)).
Proof.
  intros Hin Hfile Hdec.
  rewrite (show_file_run s args w content stream Hin Hfile Hdec).
  split; intros Hwhat.
  - by rewrite Hwhat.
  - apply String.eqb_neq in Hwhat. rewrite Hwhat. apply show_list_run.
Qed.

(** C4: [show] on an input file whose content does not decode: the
    decoder's error is the result, and the world, standard output
    included, is as before: nothing is listed and no statistics are
    written. *)
Theorem show_decode_failure s args w (content : string) (err : error) :
  In s ≠ EmptyString →
  files w !! In s = Some content →
  json_Decode_Stream content = inl err →
  ShowCmd_Execute s args w = (Ret (Some err), w).
Proof.
  intros Hin Hfile Hdec. unfold ShowCmd_Execute.
  destruct (decide (In s = EmptyString)) as [|_]; [done|].
  unfold os_Open, read_file. run. by rewrite Hfile, Hdec.
Qed.

(** C9: [show] without an input file decodes one snapshot from standard
    input and prints the info of each of its windows, in order, and
    nothing else; the mode selector plays no part: the run is the same
    for every value of [What], the report of [thyme.Stats] is never on
    the output. *)
Theorem show_stdin_snapshot s args w (snap : Snapshot) :
  In s = EmptyString →
  json_Decode_Snapshot (stdin w) = inr snap →
  ShowCmd_Execute s args w
  = (Ret None,
     set_stdout (stdout w ++ (PrintfWinfo ∘ Info <$> Windows snap)) w)
  ∧ (∀ what : string,
       ShowCmd_Execute (mkShowCmd (In s) what) args w
       = ShowCmd_Execute s args w)
  ∧ (∀ stream : Stream,
       StatsOutput stream ∈ stdout (ShowCmd_Execute s args w).2 →
       StatsOutput stream ∈ stdout w).
Proof.
  intros Hin Hdec.
  assert (Hrun : ∀ what, ShowCmd_Execute (mkShowCmd (In s) what) args w
    = (Ret None,
       set_stdout (stdout w ++ (PrintfWinfo ∘ Info <$> Windows snap)) w)).
  { intros what. unfold ShowCmd_Execute. simpl.
    destruct (decide (In s = EmptyString)) as [_|]; [|done].
    run. rewrite Hdec. run. by rewrite print_windows_run. }
  assert (Hs : ShowCmd_Execute s args w
    = (Ret None,
       set_stdout (stdout w ++ (PrintfWinfo ∘ Info <$> Windows snap)) w)).
  { destruct s as [i wh]. apply Hrun. }
  split; [exact Hs|]. split.
  - intros what. by rewrite Hrun, Hs.
  - intros stream. rewrite Hs. simpl.
    rewrite elem_of_app, list_elem_of_fmap.
    intros [?|(x & Hx & _)]; [done|]. discriminate Hx.
Qed.

(** *** track: the export *)

Lemma WriteString_nil (str : string) w :
  File_WriteString None str w = (Ret (Some ErrInvalid), w).
Proof. reflexivity. Qed.

Lemma WriteString_run (p str old : string) (fs : gmap string string) w :
  File_WriteString (Some p) str (set_files (<[p := old]> fs) w)
  = (Ret None, set_files (<[p := old +:+ str]> fs) w).
Proof.
  unfold File_WriteString, read_file, write_file. run.
  by rewrite lookup_insert_eq, insert_insert_eq.
Qed.

Lemma write_more_rows_nil (rest : list string) (value : string) w :
  write_more_rows None rest value w = (Ret tt, w).
Proof.
  revert value w. induction rest as [|v rest IH]; intros value w; [done|].
  simpl. run. apply IH.
Qed.

Lemma write_more_rows_run (p old value : string) (rest : list string)
    (fs : gmap string string) w :
  write_more_rows (Some p) rest value (set_files (<[p := old]> fs) w)
  = (Ret tt,
     set_files
       (<[p := old +:+ String.concat EmptyString
                         ((fun v => "," +:+ v) <$> rest)]> fs) w).
Proof.
  revert old value. induction rest as [|v rest IH]; intros old value.
  - simpl. run. by rewrite append_nil_r.
  - cbn [write_more_rows rows_Scan current]. unfold mbind, M_bind.
    rewrite !WriteString_run, IH. cbn [fmap list_fmap String.concat].
    do 3 f_equal. destruct rest as [|v' rest]; cbn [fmap list_fmap String.concat].
    + by rewrite !append_nil_r, !append_assoc.
    + by rewrite !append_assoc.
Qed.

(** What the export does to a world whose database holds [rows]: nothing
    when the output file cannot be created, else the file at [c.Out]
    holds exactly the values of the rows, in the order of the table. *)
Lemma export_run c (path : string) (rows : list Row) w :
  dbs w !! path = Some rows →
  path ∉ unwritable w →
  export c (mkDB path) w
  = (Ret tt,
     if bool_decide (Out c ∈ unwritable w) then w
     else set_files (<[Out c := export_text rows.*2]> (files w)) w).
Proof.
  intros Htable Hpath. unfold export, db_Query_select_value.
  unfold is_unwritable, read_table, os_Create, write_file.
  Local Opaque File_WriteString write_more_rows.
  run. rewrite (bool_decide_eq_false_2 _ Hpath), Htable. simpl.
  destruct (bool_decide (Out c ∈ unwritable w)); simpl.
  - rewrite !WriteString_nil.
    destruct rows.*2 as [|v vs]; simpl;
      by rewrite ?WriteString_nil, ?write_more_rows_nil, ?WriteString_nil.
  - rewrite !WriteString_run. unfold export_text.
    destruct rows.*2 as [|v vs]; simpl;
      rewrite !WriteString_run, write_more_rows_run, !WriteString_run;
      simpl; do 3 f_equal; by rewrite !append_assoc.
  Local Transparent File_WriteString write_more_rows.
Qed.

(** *** track: the run, case by case *)

(** The five ways a run of [track] can go before the export. *)
Lemma track_run c args w :
  ∃ t : Tracker,
    getTracker w = (Ret (inr t), w)
    ∧ TrackCmd_Execute c args w
      = let w1 := set_snap_calls (S (snap_calls w)) w in
        let path := database_path w in
        match Snap t (desktop w) with
        | inl err => (Panic err, w1)
        | inr snap =>
            match json_Marshal snap with
            | inl err => (Panic err, w1)
            | inr out =>
                if bool_decide (path ∈ unwritable w)
                then (Panic (SqliteCantOpen path), w1)
                else
                  let rows : list Row := default [] (dbs w !! path) in
                  if bool_decide (Time snap ∈ rows.*1)
                  then (Panic (SqliteConstraintUnique "data.time"), w1)
                  else
                    let w2 :=
                      set_dbs (<[path := (rows ++ [(Time snap, out)])%list]> (dbs w))
                              w1 in
                    ((if decide (Out c ≠ EmptyString)
                      then export c (mkDB path) else mret tt) ;; mret None) w2
            end
        end.
Proof.
  destruct (getTracker_run w) as (t & Ht). exists t. split; [done|].
  unfold TrackCmd_Execute, Tracker_Snap, os_Getenv, sql_Open.
  unfold db_Exec_create_table, db_Prepare_insert, stmt_Exec.
  unfold is_unwritable, read_table, write_table.
  Local Opaque export.
  unfold database_path. run. rewrite Ht. simpl.
  destruct (Snap t (desktop w)) as [err|snap]; [done|]. simpl.
  destruct (json_Marshal snap) as [err|out]; [done|]. simpl.
  set (path := default EmptyString (environ w !! "HOME")
               +:+ "/.thyme/thyme.db").
  destruct (bool_decide (path ∈ unwritable w)) eqn:Hro; [done|]. simpl.
  destruct (dbs w !! path) as [rows|] eqn:Htable; simpl.
  - repeat (progress (rewrite ?Hro, ?Htable; simpl)).
    destruct (decide (Time snap ∈ rows.*1)) as [Hdup|Hnew].
    + by rewrite (bool_decide_eq_true_2 _ Hdup).
    + by rewrite (bool_decide_eq_false_2 _ Hnew).
  - repeat (progress (rewrite ?Hro, ?lookup_insert_eq; simpl)).
    by rewrite insert_insert_eq.
  Local Transparent export.
Qed.

(** The last two statements of [track], from a world in which the
    snapshot has just been stored. *)
Lemma track_export_step c (path : string) (rows : list Row) w :
  dbs w !! path = Some rows →
  path ∉ unwritable w →
  ((if decide (Out c ≠ EmptyString)
    then export c (mkDB path) else mret tt) ;; mret (@None error)) w
  = (Ret None,
     if decide (Out c ≠ EmptyString)
     then if bool_decide (Out c ∈ unwritable w) then w
          else set_files (<[Out c := export_text rows.*2]> (files w)) w
     else w).
Proof.
  intros Htable Hpath. unfold mbind, M_bind.
  destruct (decide (Out c ≠ EmptyString)); [|done].
  by rewrite (export_run c path rows w Htable Hpath).
Qed.

(** A run in which capture, encoding and the insert all succeed. *)
Lemma track_success c args w (t : Tracker) (snap : Snapshot) (out : string) :
  getTracker w = (Ret (inr t), w) →
  Snap t (desktop w) = inr snap →
  json_Marshal snap = inr out →
  database_path w ∉ unwritable w →
  Time snap ∉ (default [] (dbs w !! database_path w)).*1 →
  TrackCmd_Execute c args w
  = let rows := (default [] (dbs w !! database_path w)
                 ++ [(Time snap, out)])%list in
    let w2 := set_dbs (<[database_path w := rows]> (dbs w))
                      (set_snap_calls (S (snap_calls w)) w) in
    (Ret None,
     if decide (Out c ≠ EmptyString)
     then if bool_decide (Out c ∈ unwritable w) then w2
          else set_files (<[Out c := export_text rows.*2]> (files w)) w2
     else w2).
Proof.
  intros Ht Hsnap Hout Hpath Hnew.
  destruct (track_run c args w) as (t' & Ht' & ->).
  rewrite Ht in Ht'. injection Ht' as <-.
  rewrite Hsnap, Hout. cbv zeta.
  rewrite (bool_decide_eq_false_2 _ Hpath), (bool_decide_eq_false_2 _ Hnew).
  erewrite track_export_step; [done| |done].
  simpl. by rewrite lookup_insert_eq.
Qed.


(** *** track: the claims *)

(** C5: when the capture fails, [track] panics with the very error that
    [Snap] returned.  [Snap] has been called once, and nothing else has
    happened: no row is stored, no file is written, nothing is
    printed. *)
Theorem track_capture_failure c args w (t : Tracker) (err : error) :
  getTracker w = (Ret (inr t), w) →
  Snap t (desktop w) = inl err →
  TrackCmd_Execute c args w = (Panic err, set_snap_calls (S (snap_calls w)) w)
  ∧ snap_calls (TrackCmd_Execute c args w).2 = S (snap_calls w)
  ∧ dbs (TrackCmd_Execute c args w).2 = dbs w
  ∧ files (TrackCmd_Execute c args w).2 = files w.
Proof.
  intros Ht Hsnap.
  destruct (track_run c args w) as (t' & Ht' & ->).
  rewrite Ht in Ht'. injection Ht' as <-.
  by rewrite Hsnap.
Qed.

(** C1: when the table already holds a row with the timestamp of the
    captured snapshot, the insert is refused with sqlite's unique
    constraint error on [data.time] and [track] panics with it; the
    databases are as before, so the table holds the same rows, the
    stored record for that timestamp included, and has the same
    length. *)
Theorem track_duplicate_timestamp c args w (t : Tracker) (snap : Snapshot)
    (out : string) (rows : list Row) :
  getTracker w = (Ret (inr t), w) →
  Snap t (desktop w) = inr snap →
  json_Marshal snap = inr out →
  database_path w ∉ unwritable w →
  dbs w !! database_path w = Some rows →
  Time snap ∈ rows.*1 →
  (TrackCmd_Execute c args w).1 = Panic (SqliteConstraintUnique "data.time")
  ∧ dbs (TrackCmd_Execute c args w).2 = dbs w
  ∧ dbs (TrackCmd_Execute c args w).2 !! database_path w = Some rows
  ∧ length <$> dbs (TrackCmd_Execute c args w).2 !! database_path w
    = Some (length rows).
Proof.
  intros Ht Hsnap Hout Hpath Htable Hdup.
  destruct (track_run c args w) as (t' & Ht' & ->).
  rewrite Ht in Ht'. injection Ht' as <-.
  rewrite Hsnap, Hout. cbv zeta.
  rewrite (bool_decide_eq_false_2 _ Hpath), Htable. simpl.
  rewrite (bool_decide_eq_true_2 _ Hdup). simpl.
  by rewrite Htable.
Qed.



End Properties.

(** *** track on concrete machines *)


(** C3: the output file cannot be created, [os.Create] says so, and
    [track] returns nil all the same; there is no file at the path. *)
Lemma track_create_failure_ignored :
  "/proc/out.json" ∈ unwritable (toy_world (inr (10, ["editor"])) ∅)
  ∧ os_Create "/proc/out.json" (toy_world (inr (10, ["editor"])) ∅)
    = (Ret (None, Some (PathError "open" "/proc/out.json")),
       toy_world (inr (10, ["editor"])) ∅)
  ∧ export_nowhere.1 = Ret None
  ∧ files export_nowhere.2 !! "/proc/out.json" = None.
Proof.
  split; [compute_done|].
  repeat split; vm_compute; reflexivity.
Qed.

(** *** The claims on concrete machines *)

Lemma getTracker_total_linux :
  ∃ t : string,
    getTracker (toy_world (inr (0, [])) ∅)
    = (Ret (inr t), toy_world (inr (0, [])) ∅)
    ∧ (GOOS (toy_world (inr (0, [])) ∅) = "windows" → t = "windows")
    ∧ (GOOS (toy_world (inr (0, [])) ∅) = "darwin" → t = "darwin")
    ∧ (GOOS (toy_world (inr (0, [])) ∅) ≠ "windows" →
       GOOS (toy_world (inr (0, [])) ∅) ≠ "darwin" → t = "linux").
Proof. exact (getTracker_total (H:=toy) (toy_world (inr (0, [])) ∅)). Defined.

Lemma track_capture_failure_no_display :
  TrackCmd_Execute (mkTrackCmd "/tmp/out.json") []
    (toy_world (inl (TrackerError "cannot open display")) ∅)
  = (Panic (TrackerError "cannot open display"),
     set_snap_calls 1 (toy_world (inl (TrackerError "cannot open display")) ∅))
  ∧ snap_calls (TrackCmd_Execute (mkTrackCmd "/tmp/out.json") []
      (toy_world (inl (TrackerError "cannot open display")) ∅)).2 = 1%nat
  ∧ dbs (TrackCmd_Execute (mkTrackCmd "/tmp/out.json") []
      (toy_world (inl (TrackerError "cannot open display")) ∅)).2 = ∅
  ∧ files (TrackCmd_Execute (mkTrackCmd "/tmp/out.json") []
      (toy_world (inl (TrackerError "cannot open display")) ∅)).2 = ∅.
Proof.
  apply (track_capture_failure (H:=toy) (mkTrackCmd "/tmp/out.json") []
           (toy_world (inl (TrackerError "cannot open display")) ∅) "linux");
    reflexivity.
Defined.

(** Two snapshots with the same timestamp in sequence: the second run
    panics and the table still has its one row. *)
Lemma track_duplicate_timestamp_twice :
  (TrackCmd_Execute (mkTrackCmd EmptyString) []
     (toy_tracked_once (inr (10, ["browser"])))).1
  = Panic (SqliteConstraintUnique "data.time")
  ∧ dbs (TrackCmd_Execute (mkTrackCmd EmptyString) []
           (toy_tracked_once (inr (10, ["browser"])))).2
    = dbs (toy_tracked_once (inr (10, ["browser"])))
  ∧ dbs (TrackCmd_Execute (mkTrackCmd EmptyString) []
           (toy_tracked_once (inr (10, ["browser"])))).2 !! home_db
    = Some [(10, "{Time:10}")]
  ∧ length <$> dbs (TrackCmd_Execute (mkTrackCmd EmptyString) []
                      (toy_tracked_once (inr (10, ["browser"])))).2 !! home_db
    = Some 1%nat.
Proof.
  apply (track_duplicate_timestamp (H:=toy) (mkTrackCmd EmptyString) []
           (toy_tracked_once (inr (10, ["browser"])))
           "linux" (10, ["browser"]) "{Time:10}" [(10, "{Time:10}")]);
    try reflexivity; compute_done.
Defined.



Lemma show_mode_dispatch_file :
  (What (mkShowCmd "thyme.json" "stats") = "stats" →
     ShowCmd_Execute (mkShowCmd "thyme.json" "stats") []
       (toy_reader {["thyme.json" := "[]"]} EmptyString)
     = (Ret None,
        set_stdout [@StatsOutput toy [(0, ["[]"])]]
          (toy_reader {["thyme.json" := "[]"]} EmptyString)))
  ∧ (What (mkShowCmd "thyme.json" "stats") ≠ "stats" →
     ShowCmd_Execute (mkShowCmd "thyme.json" "stats") []
       (toy_reader {["thyme.json" := "[]"]} EmptyString)
     = (Ret None,
        set_stdout [@PrintlnStream toy [(0, ["[]"])]; @ListOutput toy [(0, ["[]"])]]
          (toy_reader {["thyme.json" := "[]"]} EmptyString))).
Proof.
  apply (show_mode_dispatch (H:=toy) (mkShowCmd "thyme.json" "stats") []
           (toy_reader {["thyme.json" := "[]"]} EmptyString)
           "[]" [(0, ["[]"])]);
    [discriminate | reflexivity | reflexivity].
Defined.

Lemma show_decode_failure_truncated :
  ShowCmd_Execute (mkShowCmd "thyme.json" "stats") []
    (toy_reader {["thyme.json" := "{"]} EmptyString)
  = (Ret (Some (JSONError "unexpected EOF")),
     toy_reader {["thyme.json" := "{"]} EmptyString).
Proof.
  apply (show_decode_failure (H:=toy) (mkShowCmd "thyme.json" "stats") []
           (toy_reader {["thyme.json" := "{"]} EmptyString) "{");
    [discriminate | reflexivity | reflexivity].
Defined.

Lemma show_stdin_snapshot_stats :
  ShowCmd_Execute (mkShowCmd EmptyString "stats") [] (toy_reader ∅ "xterm")
  = (Ret None, set_stdout [@PrintfWinfo toy "xterm"] (toy_reader ∅ "xterm"))
  ∧ (∀ what : string,
       ShowCmd_Execute (mkShowCmd EmptyString what) [] (toy_reader ∅ "xterm")
       = ShowCmd_Execute (mkShowCmd EmptyString "stats") []
           (toy_reader ∅ "xterm"))
  ∧ (∀ stream : list (Z * list string),
       @StatsOutput toy stream
       ∈ stdout (ShowCmd_Execute (mkShowCmd EmptyString "stats") []
                   (toy_reader ∅ "xterm")).2 →
       @StatsOutput toy stream ∈ stdout (toy_reader ∅ "xterm")).
Proof.
  apply (show_stdin_snapshot (H:=toy) (mkShowCmd EmptyString "stats") []
           (toy_reader ∅ "xterm") (0, ["xterm"]));
    reflexivity.
Defined.

(** *** The aggregator *)

(** Steps 2 to 5 on the stream of the scenario of section 8: window A is
    open in the first two snapshots, so both intervals count for it. *)
Example aggregate_scenario :
  Aggregator.aggregate Aggregator.scenario !! ("app", "A")
  = Some (Aggregator.mkUsageRecord 10 15 0)
  ∧ Aggregator.aggregate Aggregator.scenario !! ("app", "B")
    = Some (Aggregator.mkUsageRecord 5 15 0)
  ∧ Aggregator.Stats Aggregator.scenario
    = inr [ (("app", "A"), Aggregator.mkUsageRecord 10 15 0);
            (("app", "B"), Aggregator.mkUsageRecord 5 15 0) ].
Proof. repeat split; vm_compute; reflexivity. Qed.

(** C8: for a stream of zero snapshots or of one snapshot the
    aggregation is the empty mapping and the stats result is the empty
    table, which is a result and not an error. *)
Theorem aggregate_short_stream (S : Aggregator.Stream) :
  (length S < 2)%nat →
  Aggregator.aggregate S = ∅ ∧ Aggregator.Stats S = inr [].
Proof.
  intros Hlen.
  assert (Hagg : Aggregator.aggregate S = ∅).
  { destruct S as [|s [|s' S]]; [reflexivity | reflexivity |].
    simpl in Hlen. lia. }
  split; [exact Hagg|].
  unfold Aggregator.Stats. rewrite Hagg, map_to_list_empty. reflexivity.
Qed.

Lemma aggregate_short_stream_single :
  Aggregator.aggregate
    [Aggregator.mkSnapshot 0 {[Aggregator.window_A]} ∅
       (Some Aggregator.window_A)] = ∅
  ∧ Aggregator.Stats
      [Aggregator.mkSnapshot 0 {[Aggregator.window_A]} ∅
         (Some Aggregator.window_A)] = inr [].
Proof.
  apply (aggregate_short_stream
           [Aggregator.mkSnapshot 0 {[Aggregator.window_A]} ∅
              (Some Aggregator.window_A)]).
  simpl. lia.
Defined.

(** * Further properties of the commands *)

Section Runs.
Context `{Thyme}.

Implicit Types (w : World) (c : TrackCmd) (s : ShowCmd).

Ltac run :=
  unfold or_panic, panic, gets, modify;
  unfold bind, mbind, mret, M_bind, M_ret;
  simpl.

(** *** track *)

(** A run of [track] ends in one of two ways: a panic after the capture
    and before anything is stored, or nil after the row is stored. *)
Lemma track_cases c args w :
  (∃ e : error,
     TrackCmd_Execute c args w
     = (Panic e, set_snap_calls (S (snap_calls w)) w))
  ∨ (∃ (snap : Snapshot) (out : string),
       (Time snap ∉ (default [] (dbs w !! database_path w)).*1)
       ∧ (database_path w ∉ unwritable w)
       ∧ TrackCmd_Execute c args w
         = (let rows := (default [] (dbs w !! database_path w)
                         ++ [(Time snap, out)])%list in
            let w2 := set_dbs (<[database_path w := rows]> (dbs w))
                              (set_snap_calls (S (snap_calls w)) w) in
            (Ret None,
             if decide (Out c ≠ EmptyString)
             then if bool_decide (Out c ∈ unwritable w) then w2
                  else set_files (<[Out c := export_text rows.*2]> (files w))
                                 w2
             else w2))).
Proof.
  destruct (track_run c args w) as (t & Ht & Hrun).
  destruct (Snap t (desktop w)) as [err|snap] eqn:Hsnap;
    [left; exists err; by rewrite Hrun|].
  destruct (json_Marshal snap) as [err|out] eqn:Hout;
    [left; exists err; by rewrite Hrun|].
  destruct (decide (database_path w ∈ unwritable w)) as [Hro|Hpath].
  { left. eexists. rewrite Hrun. cbv zeta.
    by rewrite (bool_decide_eq_true_2 _ Hro). }
  destruct (decide (Time snap ∈ (default [] (dbs w !! database_path w)).*1))
    as [Hdup|Hnew].
  { left. eexists. rewrite Hrun. cbv zeta.
    by rewrite (bool_decide_eq_false_2 _ Hpath),
               (bool_decide_eq_true_2 _ Hdup). }
  right. exists snap, out. do 2 (split; [done|]).
  by apply (track_success c args w t snap out).
Qed.

(** X1: [TrackCmd.Execute] never returns a non-nil error: when it
    returns, it returns nil.  Each of its failures is a panic. *)
Theorem track_returns_nil c args w (r : option error) :
  (TrackCmd_Execute c args w).1 = Ret r → r = None.
Proof.
  destruct (track_cases c args w) as [(e & ->)|(snap & out & _ & _ & ->)];
    cbv zeta; simpl; congruence.
Qed.

(** X2: a run of [track] that panics has stored nothing and written
    nothing: apart from the capture that was made, the world is as
    before. *)
Theorem track_panic_changes_nothing c args w (e : error) :
  (TrackCmd_Execute c args w).1 = Panic e →
  (TrackCmd_Execute c args w).2 = set_snap_calls (S (snap_calls w)) w.
Proof.
  destruct (track_cases c args w) as [(e' & ->)|(snap & out & _ & _ & ->)];
    cbv zeta; simpl; [done | discriminate].
Qed.


(** X4: [track] keeps the timestamps of the table unique: when no two
    rows share a timestamp before the run, no two rows do after it,
    whatever the outcome. *)
Theorem track_keeps_timestamps_unique c args w :
  NoDup (default [] (dbs w !! database_path w)).*1 →
  NoDup (default [] (dbs (TrackCmd_Execute c args w).2
                       !! database_path w)).*1.
Proof.
  intros Hnodup.
  destruct (track_cases c args w) as [(e & ->)|(snap & out & Hnew & _ & ->)].
  - done.
  - cbv zeta.
    assert (Hrows : NoDup (default [] (dbs w !! database_path w)
                           ++ [(Time snap, out)])%list.*1).
    { rewrite fmap_app. apply NoDup_app. split; [done|]. split.
      - intros k Hk Hk'. apply list_elem_of_singleton in Hk'. simpl in Hk'.
        by subst.
      - apply NoDup_singleton. }
    destruct (decide (Out c ≠ EmptyString));
      [destruct (bool_decide (Out c ∈ unwritable w))|];
      simpl; by rewrite lookup_insert_eq.
Qed.


(** X6: when the database file cannot be opened (the directory
    HOME/.thyme is missing, say), [track] panics with sqlite's error for
    that path.  The capture has been made by then; no row is stored and
    no file is written. *)
Theorem track_database_unopenable c args w (t : Tracker) (snap : Snapshot)
    (out : string) :
  getTracker w = (Ret (inr t), w) →
  Snap t (desktop w) = inr snap →
  json_Marshal snap = inr out →
  database_path w ∈ unwritable w →
  TrackCmd_Execute c args w
  = (Panic (SqliteCantOpen (database_path w)),
     set_snap_calls (S (snap_calls w)) w).
Proof.
  intros Ht Hsnap Hout Hro.
  destruct (track_run c args w) as (t' & Ht' & ->).
  rewrite Ht in Ht'. injection Ht' as <-.
  rewrite Hsnap, Hout. cbv zeta.
  by rewrite (bool_decide_eq_true_2 _ Hro).
Qed.


(** X15: every run of [track] calls [Snap] exactly once, whatever the
    outcome: it never skips the capture and never repeats it. *)
Theorem track_captures_once c args w :
  snap_calls (TrackCmd_Execute c args w).2 = S (snap_calls w).
Proof.
  destruct (track_cases c args w) as [(e & ->)|(snap & out & _ & _ & ->)];
    [done|].
  cbv zeta.
  destruct (decide (Out c ≠ EmptyString));
    [destruct (bool_decide (Out c ∈ unwritable w))|]; done.
Qed.




(** *** show *)

(** X8: [show] never panics and only reads: it returns, and the world
    after it is the world before it with some output added at the end of
    standard output.  Databases, files and what was printed before are
    as they were. *)
Theorem show_only_prints s args w :
  ∃ (r : option error) (printed : list Output),
    ShowCmd_Execute s args w
    = (Ret r, set_stdout (stdout w ++ printed) w).
Proof.
  unfold ShowCmd_Execute.
  destruct (decide (In s = EmptyString)) as [_|_].
  - run. destruct (json_Decode_Snapshot (stdin w)) as [err|snap].
    + exists (Some err), []. run. by rewrite app_nil_r, set_stdout_id.
    + exists None, (PrintfWinfo ∘ Info <$> Windows snap).
      run. by rewrite print_windows_run.
  - unfold os_Open, read_file. run.
    destruct (files w !! In s) as [content|];
      [|exists (Some (PathError "open" (In s))), [];
        by rewrite app_nil_r, set_stdout_id].
    simpl. destruct (json_Decode_Stream content) as [err|stream];
      [exists (Some err), []; run; by rewrite app_nil_r, set_stdout_id|].
    destruct (String.eqb (What s) "stats").
    + exists (Stats stream), [StatsOutput stream].
      unfold thyme_Stats, print. run. by destruct (Stats stream).
    + exists None, [PrintlnStream stream; ListOutput stream].
      destruct (String.eqb (What s) "list"); apply show_list_run.
Qed.

(** X9: [show -i file] when the file cannot be opened returns the error
    of [os.Open] and prints nothing. *)
Theorem show_missing_file s args w :
  In s ≠ EmptyString →
  files w !! In s = None →
  ShowCmd_Execute s args w = (Ret (Some (PathError "open" (In s))), w).
Proof.
  intros Hin Hfile. unfold ShowCmd_Execute.
  destruct (decide (In s = EmptyString)) as [|_]; [done|].
  unfold os_Open, read_file. run. by rewrite Hfile.
Qed.

(** X10: [show] without an input file, when standard input does not
    decode to a snapshot, returns the decoder's error and prints
    nothing. *)
Theorem show_stdin_decode_failure s args w (err : error) :
  In s = EmptyString →
  json_Decode_Snapshot (stdin w) = inl err →
  ShowCmd_Execute s args w = (Ret (Some err), w).
Proof.
  intros Hin Hdec. unfold ShowCmd_Execute.
  destruct (decide (In s = EmptyString)) as [_|]; [|done].
  run. by rewrite Hdec.
Qed.


(** *** dep *)

(** X12: [dep] always returns nil: it prints the dependencies of the
    tracker that [getTracker] selects for this operating system, once,
    and changes nothing else.  The branch that returns the error of
    [getTracker] is never taken. *)
Theorem dep_prints_deps (c : DepCmd) args w :
  ∃ t : Tracker,
    getTracker w = (Ret (inr t), w)
    ∧ DepCmd_Execute c args w
      = (Ret None, set_stdout (stdout w ++ [PrintlnDeps (Deps t)]) w).
Proof.
  destruct (getTracker_run w) as (t & Ht). exists t. split; [done|].
  unfold DepCmd_Execute, print. run. by rewrite Ht.
Qed.

(** *** main *)

Lemma main_of_Execute (cmd : Command) args w :
  main (inr (cmd, args)) w
  = match Command_Execute cmd args w with
    | (Ret (Some err), w') => (Ret ([LogPrint (ExecuteError err)], 1), w')
    | (Ret None, w') => (Ret ([], 0), w')
    | (Panic e, w') => (Panic e, w')
    end.
Proof.
  unfold main, main_run, CLI_Parse. run.
  destruct (Command_Execute cmd args w) as [[[err|]|e] w']; reflexivity.
Qed.

(** X13: the exit status of [main].  On an error of the parser itself
    (unknown command, bad flag, help) [main] writes the help text and
    ends with status 0.  When a command ran, the status is 1 exactly
    when [Execute] returned an error, which is then logged once; a
    panic of the command passes through [main]. *)
Theorem main_exit_status (parsed : string + Command * list string) w :
  match parsed with
  | inl msg => main parsed w = (Ret ([WriteHelp], 0), w)
  | inr (cmd, args) =>
      (∀ (err : error) w',
         Command_Execute cmd args w = (Ret (Some err), w') →
         main parsed w = (Ret ([LogPrint (ExecuteError err)], 1), w'))
      ∧ (∀ w', Command_Execute cmd args w = (Ret None, w') →
               main parsed w = (Ret ([], 0), w'))
      ∧ (∀ (e : error) w',
           Command_Execute cmd args w = (Panic e, w') →
           main parsed w = (Panic e, w'))
  end.
Proof.
  destruct parsed as [msg|[cmd args]]; [reflexivity|].
  rewrite main_of_Execute.
  split; [|split].
  - by intros err w' ->.
  - by intros w' ->.
  - by intros e w' ->.
Qed.

(** X14: through [main], [track] never ends with status 1 and never
    logs an error: the process ends with status 0 and nothing on
    standard error, or it is ended by a panic. *)
Theorem main_track_never_status_1 c args w (log : list Stderr) (status : Z) :
  (main (inr (TrackCommand c, args)) w).1 = Ret (log, status) →
  log = [] ∧ status = 0.
Proof.
  rewrite main_of_Execute. simpl.
  destruct (track_cases c args w) as [(e & ->)|(snap & out & _ & _ & ->)];
    cbv zeta; simpl; intros Hmain; [discriminate|].
  by injection Hmain as <- <-.
Qed.

End Runs.

(** *** The further properties on concrete machines *)

Lemma track_returns_nil_fresh :
  (TrackCmd_Execute (mkTrackCmd EmptyString) []
     (toy_world (inr (10, ["editor"])) ∅)).1 = Ret None
  ∧ @None error = None.
Proof.
  split; [reflexivity|].
  apply (track_returns_nil (H:=toy) (mkTrackCmd EmptyString) []
           (toy_world (inr (10, ["editor"])) ∅) None).
  reflexivity.
Defined.

Lemma track_panic_changes_nothing_duplicate :
  (TrackCmd_Execute (mkTrackCmd "/tmp/out.json") []
     (toy_tracked_once (inr (10, ["browser"])))).2
  = set_snap_calls 1 (toy_tracked_once (inr (10, ["browser"]))).
Proof.
  apply (track_panic_changes_nothing (H:=toy) (mkTrackCmd "/tmp/out.json") []
           (toy_tracked_once (inr (10, ["browser"])))
           (SqliteConstraintUnique "data.time")).
  reflexivity.
Defined.

Lemma track_keeps_timestamps_unique_second_run :
  NoDup (default []
           (dbs (TrackCmd_Execute (mkTrackCmd EmptyString) []
                   (toy_tracked_once (inr (20, ["editor"])))).2
              !! database_path (toy_tracked_once (inr (20, ["editor"]))))).*1.
Proof.
  apply (track_keeps_timestamps_unique (H:=toy) (mkTrackCmd EmptyString) []
           (toy_tracked_once (inr (20, ["editor"])))).
  compute_done.
Defined.

Lemma track_database_unopenable_no_directory :
  TrackCmd_Execute (mkTrackCmd EmptyString) []
    (toy_machine {["HOME" := "/home/u"]} {[home_db]} (inr (10, ["editor"])))
  = (Panic (SqliteCantOpen home_db),
     set_snap_calls 1
       (toy_machine {["HOME" := "/home/u"]} {[home_db]}
          (inr (10, ["editor"])))).
Proof.
  assert (Hro : database_path
                  (toy_machine {["HOME" := "/home/u"]} {[home_db]}
                     (inr (10, ["editor"])))
                ∈ unwritable
                    (toy_machine {["HOME" := "/home/u"]} {[home_db]}
                       (inr (10, ["editor"])))) by compute_done.
  exact (track_database_unopenable (H:=toy) (mkTrackCmd EmptyString) []
           (toy_machine {["HOME" := "/home/u"]} {[home_db]}
              (inr (10, ["editor"])))
           "linux" (10, ["editor"]) "{Time:10}"
           eq_refl eq_refl eq_refl Hro).
Defined.



Lemma show_missing_file_absent :
  ShowCmd_Execute (mkShowCmd "thyme.json" "list") []
    (toy_reader ∅ EmptyString)
  = (Ret (Some (PathError "open" "thyme.json")), toy_reader ∅ EmptyString).
Proof.
  apply (show_missing_file (H:=toy) (mkShowCmd "thyme.json" "list") []
           (toy_reader ∅ EmptyString));
    [discriminate | reflexivity].
Defined.

Lemma show_stdin_decode_failure_truncated :
  ShowCmd_Execute (mkShowCmd EmptyString "list") [] (toy_reader ∅ "{")
  = (Ret (Some (JSONError "unexpected EOF")), toy_reader ∅ "{").
Proof.
  apply (show_stdin_decode_failure (H:=toy) (mkShowCmd EmptyString "list") []
           (toy_reader ∅ "{"));
    reflexivity.
Defined.


Lemma main_track_never_status_1_fresh :
  (main (inr (TrackCommand (mkTrackCmd EmptyString), []))
     (toy_world (inr (10, ["editor"])) ∅)).1 = Ret ([], 0)
  ∧ @nil Stderr = [] ∧ 0 = 0.
Proof.
  split; [reflexivity|].
  apply (main_track_never_status_1 (H:=toy) (mkTrackCmd EmptyString) []
           (toy_world (inr (10, ["editor"])) ∅) [] 0).
  reflexivity.
Defined.


